(** * HTTP message signatures: the public signing and verifying layer

    A shallow embedding of [httpsig.go] (package [httpsig]): the
    construction of signers and verifiers from options, [Signer.Sign],
    [Verifier.Verify], the signing round-tripper and the verifying
    middleware, followed by the properties of that layer.

    Go values are embedded as follows.
    - [string] is [String.string]; [[]byte] is [list byte].
    - [http.Header] ([map[string][]string]) is a [gmap string (list string)].
    - [error] is the message of the error; a Go result pair [(v, err)] is
      a [Result], or a pair with an [option error] where the code returns
      both components.
    - [*http.Request] is mutated in place by the code: every function that
      receives the pointer returns the request as it leaves it.
    - [io.ReadCloser] is a record of the bytes still to be read, the error
      (if any) that ends the stream instead of EOF, and the number of calls
      of [Close] it has received. *)

From Stdlib Require Import ZArith List.
From Stdlib.Strings Require Import Ascii String Byte.
From stdpp Require Import base gmap strings list.
Import ListNotations.
Local Open Scope string_scope.

(** ** Errors and results *)

Definition error := string.

Inductive Result (A : Type) : Type :=
| Ok (a : A)
| Err (e : error).
Arguments Ok {A} a.
Arguments Err {A} e.

(** [Result] is an error monad: [x ← r; k] stops at the first error, as
    [if err != nil { return ..., err }] does. *)
#[global] Instance Result_ret : MRet Result := fun A a => Ok a.

#[global] Instance Result_bind : MBind Result := fun A B k r =>
  match r with
  | Ok a => k a
  | Err e => Err e
  end.

(** ** [sliceHas], algorithms, keys *)

Definition defaultHeaders : list string := ["content-type"; "content-length"].

Fixpoint sliceHas (haystack : list string) (needle : string) : bool :=
  match haystack with
  | [] => false
  | n :: rest => if String.eqb n needle then true else sliceHas rest needle
  end.

Definition Algorithm := string.

Definition AlgorithmRsaPkcs1v15Sha256 : Algorithm := "rsa-v1_5-sha256".
Definition AlgorithmRsaPssSha512 : Algorithm := "rsa-pss-sha512".
Definition AlgorithmEcdsaP256Sha256 : Algorithm := "ecdsa-p256-sha256".
Definition AlgorithmEcdsaP384Sha384 : Algorithm := "ecdsa-p384-sha384".
Definition AlgorithmEd25519 : Algorithm := "ed25519".
Definition AlgorithmHmacSha256 : Algorithm := "hmac-sha256".

Module SigningKey.
(** The interface [SigningKey]: one field per method. *)
Record t : Type := Build {
  Sign : list byte -> Result (list byte);
  Algorithm : string;
  Nonce : option string
}.
End SigningKey.

Module VerifyingKey.
(** The interface [VerifyingKey]; [Verify] returns [nil] on acceptance. *)
Record t : Type := Build {
  Verify : list byte -> list byte -> option error;
  Algorithm : string
}.
End VerifyingKey.

Module VerifyingKeyResolver.
Record t : Type := Build {
  Resolve : string -> Algorithm -> Result VerifyingKey.t
}.
End VerifyingKeyResolver.

(** Modelled from the spec: the key store behind [s.keys] and its [Store]
    are declared outside httpsig.go.  The spec (section 3) describes a mapping
    from unique key ids to keys that keeps insertion order: storing under
    a known id replaces the key in place, storing under a new id appends. *)
Fixpoint Store {K : Type} (keys : list (string * K)) (keyID : string) (k : K)
  : list (string * K) :=
  match keys with
  | [] => [(keyID, k)]
  | (id, k') :: rest =>
      if String.eqb id keyID then (id, k) :: rest
      else (id, k') :: Store rest keyID k
  end.

(** Modelled from the spec: the struct [signer] is declared outside
    httpsig.go; these are the two fields the options of httpsig.go
    assign, the ordered covered-component list and the key store. *)
Record signer : Type := mkSigner {
  headers : list string;
  keys : list (string * SigningKey.t)
}.

(** Modelled from the spec: the struct [verifier] is declared outside
    httpsig.go; [NewVerifier] and the options assign these fields.  The
    clock [nowFunc] is the time it reads, in seconds. *)
Record verifier : Type := mkVerifier {
  vkeys : list (string * VerifyingKey.t);
  resolver : option VerifyingKeyResolver.t;
  nowFunc : unit -> Z
}.

(** ** Options *)

(** [signOption] and [verifyOption]: the one method of each interface,
    [configureSign] and [configureVerify], as a state transformer. *)
Definition signOption := signer -> signer.
Definition verifyOption := verifier -> verifier.

Definition configureSign (o : signOption) (s : signer) : signer := o s.
Definition configureVerify (o : verifyOption) (v : verifier) : verifier := o v.

Definition WithHeaders (hdr : list string) : signOption :=
  fun s => mkSigner hdr (keys s).

Definition WithVerifyingKeyResolver (r : VerifyingKeyResolver.t) : verifyOption :=
  fun v => mkVerifier (vkeys v) (Some r) (nowFunc v).

(** The [WithSign...] options all have the body
    [s.keys.Store(keyID, key)], and the [WithVerify...] options
    [v.keys.Store(keyID, key)]; they differ in the key type they wrap. *)
Definition WithSigningKey (keyID : string) (k : SigningKey.t) : signOption :=
  fun s => mkSigner (headers s) (Store (keys s) keyID k).

Definition WithVerifyingKey (keyID : string) (k : VerifyingKey.t) : verifyOption :=
  fun v => mkVerifier (Store (vkeys v) keyID k) (resolver v) (nowFunc v).

(** ** [NewSigner] *)

(** The loop [for _, o := range opts { o.configureSign(&s) }] on the
    zero value [signer{}]. *)
Definition applySignOptions (opts : list signOption) : signer :=
  fold_left (fun s o => configureSign o s) opts (mkSigner [] []).

(** One iteration of the loop over the specialty components:
    [if !sliceHas(s.headers, comp) { s.headers = append([]string{comp}, s.headers...) }]. *)
Definition prependIfMissing (hs : list string) (comp : string) : list string :=
  if negb (sliceHas hs comp) then comp :: hs else hs.

Definition specialtyComponents : list string :=
  ["content-digest"; "@query"; "@path"; "@method"].

Definition NewSigner (opts : list signOption) : signer :=
  let s := applySignOptions opts in
  let hs := if Nat.eqb (length (headers s)) 0 then defaultHeaders else headers s in
  mkSigner (fold_left prependIfMissing specialtyComponents hs) (keys s).

(** ** [http.Header] *)

Abbreviation http_Header := (gmap string (list string)).

(** [validHeaderFieldByte] of [net/textproto]: the token characters. *)
Definition validHeaderFieldByte (c : ascii) : bool :=
  let n := nat_of_ascii c in
  ((48 <=? n) && (n <=? 57) || (65 <=? n) && (n <=? 90) || (97 <=? n) && (n <=? 122)
   || existsb (Ascii.eqb c) (list_ascii_of_string "!#$%&'*+-.^_`|~"))%nat.

(** The canonicalising loop: upper case for the first letter and for a
    letter after a dash, lower case for the others. *)
Fixpoint canonicalMIMEHeaderKey (upper : bool) (s : string) : string :=
  match s with
  | EmptyString => EmptyString
  | String c rest =>
      let n := nat_of_ascii c in
      let c' :=
        if (upper && (97 <=? n) && (n <=? 122))%nat then ascii_of_nat (n - 32)
        else if (negb upper && (65 <=? n) && (n <=? 90))%nat then ascii_of_nat (n + 32)
        else c in
      String c' (canonicalMIMEHeaderKey (Ascii.eqb c' "-") rest)
  end.

(** [textproto.CanonicalMIMEHeaderKey]: a key with a byte that is not a
    token character is returned unchanged. *)
Definition CanonicalMIMEHeaderKey (s : string) : string :=
  if forallb validHeaderFieldByte (list_ascii_of_string s)
  then canonicalMIMEHeaderKey true s
  else s.

Module Header.
(** [h.Set(key, value)]: [h[CanonicalMIMEHeaderKey(key)] = []string{value}]. *)
Definition Set_ (h : http_Header) (key value : string) : http_Header :=
  <[CanonicalMIMEHeaderKey key := [value]]> h.

(** [h.Get(key)]: the first value under the canonical key, or [""]. *)
Definition Get (h : http_Header) (key : string) : string :=
  match h !! CanonicalMIMEHeaderKey key with
  | Some (v :: _) => v
  | _ => ""
  end.

(** [h.Add(key, value)]: appends to the values under the canonical key. *)
Definition Add (h : http_Header) (key value : string) : http_Header :=
  let k := CanonicalMIMEHeaderKey key in
  <[k := (default [] (h !! k) ++ [value])%list]> h.
End Header.

(** ** Request bodies and requests *)

Record ReadCloser : Type := mkReadCloser {
  pending : list byte;
  failure : option error;
  closes : nat
}.

(** [b.ReadFrom(body)] on an empty [bytes.Buffer]: reads until EOF or the
    first error; yields the buffer, the number of bytes read, the error,
    and the stream as the read leaves it. *)
Definition ReadFrom (body : ReadCloser)
  : list byte * Z * option error * ReadCloser :=
  (pending body, Z.of_nat (length (pending body)), failure body,
   mkReadCloser [] (failure body) (closes body)).

Definition Close (body : ReadCloser) : ReadCloser :=
  mkReadCloser (pending body) (failure body) (S (closes body)).

(** [io.NopCloser(bytes.NewReader(b))]: a fresh stream over [b]. *)
Definition NopCloser_NewReader (b : list byte) : ReadCloser :=
  mkReadCloser b None 0.

(** [*http.Request]: the fields the package touches; [Body = None] is
    the nil body. *)
Record Request : Type := mkRequest {
  Method : string;
  URL : string;
  Header : http_Header;
  Body : option ReadCloser
}.

Definition setHeader (r : Request) (h : http_Header) : Request :=
  mkRequest (Method r) (URL r) h (Body r).

Definition setBody (r : Request) (b : option ReadCloser) : Request :=
  mkRequest (Method r) (URL r) (Header r) b.

(** The block that opens [Signer.Sign] (lines 75-86) and follows the
    signature check in [Verifier.Verify] (lines 137-148): buffer the body,
    close it, and install a re-readable copy when bytes were read.  On a
    read error the code returns at once: the stream is neither closed nor
    replaced. *)
Definition bufferBody (r : Request) : list byte * Request * option error :=
  match Body r with
  | None => ([], r, None)
  | Some body =>
      let '(b, n, err, body) := ReadFrom body in
      match err with
      | Some e => (b, setBody r (Some body), Some e)
      | None =>
          let body := Close body in
          if negb (n =? 0)%Z
          then (b, setBody r (Some (NopCloser_NewReader b)), None)
          else (b, setBody r (Some body), None)
      end
  end.

(** ** The package-internal collaborators *)

(** Signature parameters (spec, section 3): the covered identifiers and
    the named fields. *)
Record signatureParams : Type := mkSignatureParams {
  items : list string;
  created : Z;
  expires : option Z;
  nonce : option string;
  alg : Algorithm;
  keyid : string
}.

(** What httpsig.go calls but does not define: the request view, the
    digest codec, the signature-base builder and its serialisers, the
    clock, and the verifying engine [verifier.Verify], which returns a key
    id together with an error or [nil]. *)
Class Internals : Type := {
  message : Type;
  messageFromRequest : Request -> message;
  calcDigest : list byte -> string;
  verifyDigest : list byte -> string -> bool;
  signatureBase : message -> list string -> signatureParams -> Result (list byte);
  canonicalizeParams : signatureParams -> string;
  encodeBase64 : list byte -> string;
  entryLabel : nat -> string -> string;
  time_Now : unit -> Z;
  verifier_Verify : verifier -> message -> string * option error
}.

(** Modelled from the spec: the signing engine [signer.Sign] is declared
    outside httpsig.go.  Spec section 4.5, steps 4 and 5: for each key in
    store order, build the parameters ([created] from the clock, [alg] and
    [nonce] from the key, [keyid] its store key), build the signature base,
    sign it, and accumulate one labelled entry for Signature-Input and one
    for Signature; the first failure aborts the call. *)
Fixpoint signEach `{Internals} (hs : list string) (msg : message) (now : Z)
    (i : nat) (ks : list (string * SigningKey.t)) : Result (list (string * string)) :=
  match ks with
  | [] => Ok []
  | (id, k) :: rest =>
      let p := mkSignatureParams hs now None (SigningKey.Nonce k)
                 (SigningKey.Algorithm k) id in
      let label := entryLabel i id in
      base ← signatureBase msg hs p;
      sig ← SigningKey.Sign k base;
      entries ← signEach hs msg now (S i) rest;
      mret ((label ++ "=" ++ canonicalizeParams p,
             label ++ "=:" ++ encodeBase64 sig ++ ":") :: entries)
  end.

(** Modelled from the spec: the signing engine [signer.Sign], step 6: the
    accumulated entries are handed back as header values under
    Signature-Input and Signature. *)
Definition signer_Sign `{Internals} (s : signer) (msg : message) : Result http_Header :=
  entries ← signEach (headers s) msg (time_Now tt) 1 (keys s);
  mret (fold_left
          (fun h e => Header.Add (Header.Add h "Signature-Input" (fst e)) "Signature" (snd e))
          entries ∅).

(** ** [Signer.Sign] and [Verifier.Verify] *)

(** [for k, v := range hdr { r.Header[k] = v }] *)
Definition assignAll (hdr h : http_Header) : http_Header :=
  map_fold (fun k v acc => <[k := v]> acc) h hdr.

Definition errDigestMismatch : error := "digest mismatch".

Module Signer.
Definition Sign `{Internals} (s : signer) (r : Request) : Request * option error :=
  let '(b, r, err) := bufferBody r in
  match err with
  | Some e => (r, Some e)
  | None =>
      let r := setHeader r (Header.Set_ (Header r) "Content-Digest" (calcDigest b)) in
      let msg := messageFromRequest r in
      match signer_Sign s msg with
      | Err e => (r, Some e)
      | Ok hdr => (setHeader r (assignAll hdr (Header r)), None)
      end
  end.
End Signer.

Definition NewVerifier `{Internals} (opts : list verifyOption) : verifier :=
  fold_left (fun v o => configureVerify o v) opts (mkVerifier [] None time_Now).

Module Verifier.
Definition Verify `{Internals} (v : verifier) (r : Request)
  : Request * string * option error :=
  let msg := messageFromRequest r in
  let '(keyID, err) := verifier_Verify v msg in
  match err with
  | Some e => (r, keyID, Some e)
  | None =>
      let '(b, r, err) := bufferBody r in
      match err with
      | Some e => (r, keyID, Some e)
      | None =>
          let dig := Header.Get (Header r) "Content-Digest" in
          if negb (String.eqb dig "") then
            if negb (verifyDigest b dig) then (r, keyID, Some errDigestMismatch)
            else (r, keyID, None)
          else (r, keyID, None)
      end
  end.
End Verifier.

(** ** The signing transport *)

(** [*http.Response]. *)
Record Response : Type := mkResponse {
  StatusCode : Z;
  RespHeader : http_Header;
  RespBody : list byte
}.

(** [http.RoundTripper]: the method [RoundTrip]. *)
Definition RoundTripper := Request -> option Response * option error.

(** What one [RoundTrip] of the signing transport leaves behind: the
    result pair, the request as mutated, and the requests with which the
    wrapped transport was invoked, in order. *)
Record RoundTripOutcome : Type := mkRoundTripOutcome {
  rtResponse : option Response;
  rtErr : option error;
  rtRequest : Request;
  rtForwarded : list Request
}.

Definition NewSignTransport `{Internals} (transport : RoundTripper)
    (opts : list signOption) (r : Request) : RoundTripOutcome :=
  let s := NewSigner opts in
  let '(r, err) := Signer.Sign s r in
  match err with
  | Some e => mkRoundTripOutcome None (Some e) r []
  | None =>
      let '(resp, err) := transport r in
      mkRoundTripOutcome resp err r [r]
  end.

(** ** The verifying middleware *)

(** [http.ResponseWriter]: the header map handed out by [Header()], the
    status line and header snapshot committed by the first [WriteHeader],
    and the body bytes written so far. *)
Record ResponseWriter : Type := mkResponseWriter {
  rwHeader : http_Header;
  rwCommitted : option (Z * http_Header);
  rwBody : list byte
}.

Definition WriteHeader (rw : ResponseWriter) (code : Z) : ResponseWriter :=
  match rwCommitted rw with
  | Some _ => rw
  | None => mkResponseWriter (rwHeader rw) (Some (code, rwHeader rw)) (rwBody rw)
  end.

(** [rw.Write(b)]: an implicit [WriteHeader(http.StatusOK)] when no
    status was committed, then the bytes. *)
Definition Write (rw : ResponseWriter) (b : list byte) : ResponseWriter :=
  let rw := WriteHeader rw 200 in
  mkResponseWriter (rwHeader rw) (rwCommitted rw) (rwBody rw ++ b)%list.

Definition StatusBadRequest : Z := 400.

Definition serveErr (rw : ResponseWriter) : ResponseWriter :=
  let rw := mkResponseWriter (Header.Set_ (rwHeader rw) "Content-Type" "text/plain")
              (rwCommitted rw) (rwBody rw) in
  let rw := WriteHeader rw StatusBadRequest in
  let body := list_byte_of_string "invalid required signature" in Write rw body.

(** [http.Handler]: [ServeHTTP] may write to the response and mutate the
    request. *)
Definition Handler := ResponseWriter -> Request -> ResponseWriter * Request.

(** What one call of the middleware leaves behind: the response writer,
    the request, and the arguments of every invocation of the wrapped
    handler, in order. *)
Record ServeOutcome : Type := mkServeOutcome {
  srvWriter : ResponseWriter;
  srvRequest : Request;
  srvHandled : list (ResponseWriter * Request)
}.

Definition NewVerifyMiddleware `{Internals} (opts : list verifyOption) (h : Handler)
    (rw : ResponseWriter) (r : Request) : ServeOutcome :=
  let v := NewVerifier opts in
  let '(r, _, err) := Verifier.Verify v r in
  match err with
  | Some _ => mkServeOutcome (serveErr rw) r []
  | None =>
      let '(rw', r') := h rw r in
      mkServeOutcome rw' r' [(rw, r)]
  end.

(** ** Vocabulary of the statements *)

(** The caller-specified headers [NewSigner] works from: the configured
    list, or [defaultHeaders] when none is configured. *)
Definition callerSpecified (opts : list signOption) : list string :=
  let hs := headers (applySignOptions opts) in
  if Nat.eqb (length hs) 0 then defaultHeaders else hs.

(** The bytes a successful read of the body yields; none for a nil body. *)
Definition bodyBytes (r : Request) : list byte :=
  match Body r with
  | None => []
  | Some body => pending body
  end.

(** The body can be read to EOF (or is nil). *)
Definition bodyReadable (r : Request) : Prop :=
  match Body r with
  | None => True
  | Some body => failure body = None
  end.

(** How the buffering block leaves [r.Body]: a nil body stays nil; a body
    that yields zero bytes stays the original stream, closed; a body that
    yields bytes is replaced by a fresh reader over them. *)
Definition bufferedAs (before after : option ReadCloser) : Prop :=
  match before with
  | None => after = None
  | Some body =>
      match pending body with
      | [] => after = Some (Close body)
      | _ :: _ => after = Some (NopCloser_NewReader (pending body))
      end
  end.

(** The header map holds entries under Signature-Input and Signature only. *)
Definition signatureKeysOnly (h : http_Header) : Prop :=
  forall k, is_Some (h !! k) -> k = "Signature-Input" \/ k = "Signature".

(** The head ordering as the specification words it: the list begins with
    content-digest, @query, @path, @method, then the caller's headers. *)
Definition headOrderAsSpecified (opts : list signOption) : Prop :=
  headers (NewSigner opts) =
  (["content-digest"; "@query"; "@path"; "@method"] ++ callerSpecified opts)%list.

(** Each specialty component occurs exactly once in the final list. *)
Definition specialtyOccurOnce (opts : list signOption) : Prop :=
  Forall (fun c => count_occ string_dec (headers (NewSigner opts)) c = 1)
         specialtyComponents.

(** A failed [Sign] leaves the header map as it found it. *)
Definition signFailureLeavesHeaders `{Internals} (s : signer) (r : Request) : Prop :=
  forall r' e, Signer.Sign s r = (r', Some e) -> Header r' = Header r.

(** An accepted signature and no Content-Digest header are enough for
    [Verify] to return the key id and no error. *)
Definition acceptedWithoutDigest `{Internals} (v : verifier) (r : Request) : Prop :=
  forall keyID,
    verifier_Verify v (messageFromRequest r) = (keyID, None) ->
    Header r !! "Content-Digest" = None ->
    exists r', Verifier.Verify v r = (r', keyID, None).

(** ** A small instance of the collaborators

    Used to run the definitions on concrete requests.  The digest and the
    encodings are the identity on bytes, the signature base is the list of
    covered identifiers, and the verifying engine accepts the request
    under the first stored key id when a Signature header is present. *)
Definition toyDigest (b : list byte) : string :=
  "sha-512=:" ++ string_of_list_byte b ++ ":".

#[local] Instance toyInternals : Internals := {|
  message := Request;
  messageFromRequest := fun r => r;
  calcDigest := toyDigest;
  verifyDigest := fun b dig => String.eqb dig (toyDigest b);
  signatureBase := fun _ hs _ => Ok (list_byte_of_string (String.concat " " hs));
  canonicalizeParams := fun p => "(" ++ String.concat " " (items p) ++ ");keyid=" ++ keyid p;
  encodeBase64 := string_of_list_byte;
  entryLabel := fun _ id => id;
  time_Now := fun _ => 1700000000%Z;
  verifier_Verify := fun v msg =>
    if String.eqb (Header.Get (Header msg) "Signature") "" then ("", Some "not signed")
    else match vkeys v with
         | [] => ("", Some "unknown key id")
         | (id, _) :: _ => (id, None)
         end
|}.

Definition hmacLikeKey : SigningKey.t :=
  SigningKey.Build (fun data => Ok data) AlgorithmHmacSha256 None.

Definition brokenKey : SigningKey.t :=
  SigningKey.Build (fun _ => Err "signing failed") AlgorithmRsaPkcs1v15Sha256 None.

Definition acceptingKey : VerifyingKey.t :=
  VerifyingKey.Build (fun _ _ => None) AlgorithmHmacSha256.

(** A signer whose only key cannot sign, and one with a working key. *)
Definition brokenSigner : signer :=
  NewSigner [WithHeaders ["content-type"]; WithSigningKey "test-key" brokenKey].

Definition testSigner : signer :=
  NewSigner [WithHeaders ["content-type"]; WithSigningKey "test-key" hmacLikeKey].

(** [GET /foo?bar=1] with a content type and a nil body. *)
Definition getFoo : Request :=
  mkRequest "GET" "/foo?bar=1" {[ "Content-Type" := ["application/json"] ]} None.

(** A [POST] whose body holds the bytes of [hello]. *)
Definition postHello : Request :=
  mkRequest "POST" "/submit" {[ "Content-Type" := ["text/plain"] ]}
    (Some (mkReadCloser (list_byte_of_string "hello") None 0)).

Definition signedHeader (dig : option string) : http_Header :=
  let h : http_Header :=
    {[ "Signature" := ["test-key=:c2ln:"];
       "Signature-Input" := ["test-key=();keyid=test-key"] ]} in
  match dig with
  | Some d => <["Content-Digest" := [d]]> h
  | None => h
  end.

(** Signed requests as the toy verifying engine accepts them. *)
Definition signedPost (dig : option string) (body : option ReadCloser) : Request :=
  mkRequest "POST" "/submit" (signedHeader dig) body.

Definition helloBody : ReadCloser :=
  mkReadCloser (list_byte_of_string "hello") None 0.

Definition emptyBody : ReadCloser := mkReadCloser [] None 0.

Definition testVerifyOptions : list verifyOption :=
  [WithVerifyingKey "test-key" acceptingKey].

Definition freshWriter : ResponseWriter := mkResponseWriter ∅ None [].

Definition echoHandler : Handler :=
  fun rw r => (Write rw (list_byte_of_string "ok"), r).

Definition okTransport : RoundTripper :=
  fun _ => (Some (mkResponse 200 ∅ []), None).

(** ** Vocabulary of the further properties *)

(** The options that store a signing key: the [WithSign...] options and
    the signing half of [WithHmacSha256]. *)
Definition isSignKeyOption (o : signOption) : Prop :=
  exists keyID k, o = WithSigningKey keyID k.

(** The options that store a verifying key: the [WithVerify...] options
    and the verifying half of [WithHmacSha256]. *)
Definition isVerifyKeyOption (o : verifyOption) : Prop :=
  exists keyID k, o = WithVerifyingKey keyID k.

(** The verify options httpsig.go exports. *)
Definition exportedVerifyOption (o : verifyOption) : Prop :=
  (exists rs, o = WithVerifyingKeyResolver rs) \/ isVerifyKeyOption o.

(** The request [Sign] hands to the signing engine: the incoming request
    with Content-Digest set, carrying the body the buffering left. *)
Definition digested `{Internals} (r : Request) (body : option ReadCloser) : Request :=
  mkRequest (Method r) (URL r)
    (<["Content-Digest" := [calcDigest (bodyBytes r)]]> (Header r)) body.

(** A body whose read breaks off with an error after two bytes. *)
Definition brokenBody : ReadCloser :=
  mkReadCloser (list_byte_of_string "he") (Some "unexpected EOF") 0.

Definition postBroken : Request :=
  mkRequest "POST" "/submit" {[ "Content-Type" := ["text/plain"] ]} (Some brokenBody).

(** * Properties *)

(** ** [sliceHas] and the header list of [NewSigner] *)

Lemma sliceHas_In (hs : list string) (c : string) :
  sliceHas hs c = true <-> In c hs.
Proof.
  induction hs as [|n rest IH]; simpl.
  - split; [discriminate | tauto].
  - destruct (String.eqb_spec n c) as [->|Hne].
    + split; auto.
    + rewrite IH. split; [tauto | intros [?|?]; [congruence | assumption]].
Qed.

Lemma sliceHas_count (hs : list string) (c : string) :
  sliceHas hs c = negb (Nat.eqb (count_occ string_dec hs c) 0).
Proof.
  induction hs as [|n rest IH]; simpl; [reflexivity|].
  destruct (String.eqb_spec n c) as [->|Hne].
  - destruct (string_dec c c); [reflexivity | congruence].
  - destruct (string_dec n c); [congruence | exact IH].
Qed.

(** The four iterations of the prepend loop, unrolled: each specialty
    component the caller left out is put in front, the last one of the
    loop ending up first. *)
Lemma prepend_specialty (hs : list string) :
  fold_left prependIfMissing specialtyComponents hs =
  (List.filter (fun c => negb (sliceHas hs c))
     ["@method"; "@path"; "@query"; "content-digest"] ++ hs)%list.
Proof.
  unfold specialtyComponents, prependIfMissing. cbn [fold_left List.filter].
  destruct (sliceHas hs "content-digest") eqn:Hd;
    destruct (sliceHas hs "@query") eqn:Hq;
    destruct (sliceHas hs "@path") eqn:Hp;
    destruct (sliceHas hs "@method") eqn:Hm;
    cbn; rewrite ?Hd, ?Hq, ?Hp, ?Hm; cbn;
    rewrite ?Hd, ?Hq, ?Hp, ?Hm; cbn;
    rewrite ?Hd, ?Hq, ?Hp, ?Hm; reflexivity.
Qed.

Lemma NewSigner_headers (opts : list signOption) :
  headers (NewSigner opts) =
  (List.filter (fun c => negb (sliceHas (callerSpecified opts) c))
     ["@method"; "@path"; "@query"; "content-digest"] ++ callerSpecified opts)%list.
Proof. unfold NewSigner, callerSpecified. cbn [headers]. apply prepend_specialty. Qed.

(** When the caller names none of the specialty components, all four are
    in front, @method first. *)
Lemma NewSigner_headers_fresh (opts : list signOption) :
  (forall c, In c specialtyComponents -> ~ In c (callerSpecified opts)) ->
  headers (NewSigner opts) =
  (["@method"; "@path"; "@query"; "content-digest"] ++ callerSpecified opts)%list.
Proof.
  intros Hfresh. rewrite NewSigner_headers.
  assert (Hno : forall c, In c specialtyComponents ->
            sliceHas (callerSpecified opts) c = false).
  { intros c Hc. destruct (sliceHas (callerSpecified opts) c) eqn:Hs; [|reflexivity].
    apply sliceHas_In in Hs. destruct (Hfresh c Hc Hs). }
  cbn [List.filter].
  rewrite !Hno by (simpl; tauto). reflexivity.
Qed.

Lemma count_occ_prepended (hs : list string) (c : string) :
  In c specialtyComponents ->
  count_occ string_dec
    (List.filter (fun c => negb (sliceHas hs c))
       ["@method"; "@path"; "@query"; "content-digest"]) c =
  if sliceHas hs c then 0 else 1.
Proof.
  intros Hc. cbn [List.filter].
  destruct (sliceHas hs "content-digest") eqn:Hd;
    destruct (sliceHas hs "@query") eqn:Hq;
    destruct (sliceHas hs "@path") eqn:Hp;
    destruct (sliceHas hs "@method") eqn:Hm;
    cbn [negb];
    simpl in Hc; destruct Hc as [<-|[<-|[<-|[<-|[]]]]];
    rewrite ?Hd, ?Hq, ?Hp, ?Hm; reflexivity.
Qed.

(** C2 (as amended): the covered-component list of every signer is made of
    those of @method, @path, @query, content-digest, in exactly that
    order, that the caller-specified headers do not already contain,
    followed by the caller-specified headers (the default headers when
    none are configured). *)
Theorem NewSigner_head_order (opts : list signOption) :
  headers (NewSigner opts) =
  (List.filter (fun c => negb (sliceHas (callerSpecified opts) c))
     ["@method"; "@path"; "@query"; "content-digest"] ++ callerSpecified opts)%list.
Proof. apply NewSigner_headers. Qed.

(** C2 (as stated) fails: with the single caller header content-type the
    list is @method, @path, @query, content-digest, content-type, which
    does not begin with content-digest. *)
Lemma head_order_as_specified_fails :
  headers (NewSigner [WithHeaders ["content-type"]]) =
    ["@method"; "@path"; "@query"; "content-digest"; "content-type"]
  /\ ~ headOrderAsSpecified [WithHeaders ["content-type"]].
Proof.
  split; [reflexivity|].
  unfold headOrderAsSpecified. vm_compute. discriminate.
Qed.

(** C6 (as amended): each of content-digest, @query, @path, @method occurs
    in the final list max(1, n) times, n being its number of occurrences
    in the caller-specified headers: the prepend step adds an identifier
    only when it is absent, so an identifier the caller gives at most once
    occurs exactly once, and duplicates the caller gives are kept. *)
Theorem NewSigner_specialty_count (opts : list signOption) :
  Forall (fun c =>
            count_occ string_dec (headers (NewSigner opts)) c =
            Nat.max 1 (count_occ string_dec (callerSpecified opts) c))
         specialtyComponents.
Proof.
  apply Forall_forall. intros c Hc. apply list_elem_of_In in Hc.
  rewrite NewSigner_headers, count_occ_app, count_occ_prepended by exact Hc.
  rewrite sliceHas_count.
  destruct (count_occ string_dec (callerSpecified opts) c); reflexivity.
Qed.

(** C6 (as stated) fails: a caller list that names @path twice keeps both
    occurrences. *)
Lemma specialty_occur_once_fails :
  count_occ string_dec (headers (NewSigner [WithHeaders ["@path"; "@path"]])) "@path" = 2
  /\ ~ specialtyOccurOnce [WithHeaders ["@path"; "@path"]].
Proof.
  split; [reflexivity|].
  unfold specialtyOccurOnce. rewrite Forall_forall. intros H.
  specialize (H "@path"). vm_compute in H.
  assert (Hin : "@path" ∈ ["content-digest"; "@query"; "@path"; "@method"])
    by (apply list_elem_of_In; simpl; tauto).
  specialize (H Hin). discriminate.
Qed.

(** C7: when no header list is configured (the options leave [s.headers]
    empty), the covered-component list is the four prepended identifiers
    followed by exactly content-type and content-length. *)
Theorem NewSigner_default_headers (opts : list signOption) :
  length (headers (applySignOptions opts)) = 0 ->
  callerSpecified opts = ["content-type"; "content-length"]
  /\ headers (NewSigner opts) =
     (["@method"; "@path"; "@query"; "content-digest"]
        ++ ["content-type"; "content-length"])%list.
Proof.
  intros Hlen.
  assert (Hc : callerSpecified opts = ["content-type"; "content-length"]).
  { unfold callerSpecified. rewrite Hlen. reflexivity. }
  split; [exact Hc|].
  rewrite NewSigner_headers, Hc. reflexivity.
Qed.

(** C7 at two option lists: key options only, and an empty [WithHeaders]. *)
Lemma NewSigner_default_headers_witness :
  headers (NewSigner [WithSigningKey "test-key" hmacLikeKey]) =
    ["@method"; "@path"; "@query"; "content-digest"; "content-type"; "content-length"]
  /\ headers (NewSigner [WithHeaders []]) =
    ["@method"; "@path"; "@query"; "content-digest"; "content-type"; "content-length"].
Proof.
  split.
  - apply (NewSigner_default_headers [WithSigningKey "test-key" hmacLikeKey]).
    reflexivity.
  - apply (NewSigner_default_headers [WithHeaders []]). reflexivity.
Defined.

(** ** Header maps *)

Lemma assignAll_union (hdr h : http_Header) : assignAll hdr h = hdr ∪ h.
Proof.
  unfold assignAll.
  apply (map_fold_weak_ind (fun acc m => acc = m ∪ h)).
  - symmetry. apply (left_id ∅ (∪)).
  - intros i x m acc _ ->. apply insert_union_l.
Qed.

Lemma canonical_content_digest :
  CanonicalMIMEHeaderKey "Content-Digest" = "Content-Digest".
Proof. reflexivity. Qed.

Lemma canonical_signature_input :
  CanonicalMIMEHeaderKey "Signature-Input" = "Signature-Input".
Proof. reflexivity. Qed.

Lemma canonical_signature : CanonicalMIMEHeaderKey "Signature" = "Signature".
Proof. reflexivity. Qed.

Lemma Set_lookup_ne (h : http_Header) (v k : string) :
  k ≠ "Content-Digest" ->
  Header.Set_ h "Content-Digest" v !! k = h !! k.
Proof.
  intros Hk. unfold Header.Set_. rewrite canonical_content_digest.
  apply lookup_insert_ne. congruence.
Qed.

(** ** The signing engine writes Signature-Input and Signature only *)

Lemma signatureKeysOnly_Add (h : http_Header) (k v : string) :
  k = "Signature-Input" \/ k = "Signature" ->
  signatureKeysOnly h -> signatureKeysOnly (Header.Add h k v).
Proof.
  intros Hk Hh k' Hsome. unfold Header.Add in Hsome.
  destruct Hk as [-> | ->].
  - rewrite canonical_signature_input in Hsome.
    destruct (decide (k' = "Signature-Input")) as [->|Hne]; [by left|].
    rewrite lookup_insert_ne in Hsome by congruence. by apply Hh.
  - rewrite canonical_signature in Hsome.
    destruct (decide (k' = "Signature")) as [->|Hne]; [by right|].
    rewrite lookup_insert_ne in Hsome by congruence. by apply Hh.
Qed.

Lemma signer_Sign_keys `{Internals} (s : signer) (msg : message) (hdr : http_Header) :
  signer_Sign s msg = Ok hdr -> signatureKeysOnly hdr.
Proof.
  unfold signer_Sign.
  destruct (signEach (headers s) msg (time_Now tt) 1 (keys s)) as [entries|e];
    simpl; [|discriminate].
  intros [= <-].
  assert (Hgen : forall h0, signatureKeysOnly h0 ->
            signatureKeysOnly
              (fold_left
                 (fun h e => Header.Add (Header.Add h "Signature-Input" (fst e))
                               "Signature" (snd e)) entries h0)).
  { induction entries as [|e rest IH]; intros h0 H0; simpl; [exact H0|].
    apply IH. apply signatureKeysOnly_Add; [by right|].
    apply signatureKeysOnly_Add; [by left | exact H0]. }
  apply Hgen. intros k [x Hx]. by rewrite lookup_empty in Hx.
Qed.

(** A key whose [Sign] fails on its signature base makes the engine fail,
    whatever the later keys do, once the keys before it have signed. *)
Lemma signEach_first_failure `{Internals} (hs : list string) (msg : message) (now : Z)
    (i : nat) (id : string) (k : SigningKey.t) (rest : list (string * SigningKey.t))
    (base : list byte) (e : error) :
  signatureBase msg hs
    (mkSignatureParams hs now None (SigningKey.Nonce k) (SigningKey.Algorithm k) id)
    = Ok base ->
  SigningKey.Sign k base = Err e ->
  signEach hs msg now i ((id, k) :: rest) = Err e.
Proof. intros Hb Hs. simpl. rewrite Hb. simpl. rewrite Hs. reflexivity. Qed.

(** ** The buffering block *)

Lemma bufferBody_readable (r : Request) :
  bodyReadable r ->
  exists r1, bufferBody r = (bodyBytes r, r1, None)
             /\ Header r1 = Header r /\ bufferedAs (Body r) (Body r1).
Proof.
  unfold bodyReadable, bufferBody, bodyBytes, bufferedAs, ReadFrom.
  destruct (Body r) as [[p f c]|] eqn:HB; simpl.
  - intros ->. destruct p as [|x p]; simpl.
    + eexists; split; [reflexivity|]. split; reflexivity.
    + eexists; split; [reflexivity|]. split; reflexivity.
  - intros _. exists r. rewrite HB. auto.
Qed.

Lemma bufferBody_failure (r : Request) (b : list byte) (r1 : Request) (e : error) :
  bufferBody r = (b, r1, Some e) -> ~ bodyReadable r /\ Header r1 = Header r.
Proof.
  unfold bodyReadable, bufferBody, ReadFrom.
  destruct (Body r) as [[p f c]|]; simpl; [|discriminate].
  destruct f as [e'|]; simpl.
  - intros [= <- <- <-]. split; [discriminate | reflexivity].
  - destruct (negb (Z.of_nat (length p) =? 0)%Z); discriminate.
Qed.

(** ** [Signer.Sign] *)

(** [Sign] on a readable body, unfolded up to the call of the engine. *)
Lemma Sign_readable `{Internals} (s : signer) (r : Request) :
  bodyReadable r ->
  exists r1, Header r1 = Header r /\ bufferedAs (Body r) (Body r1) /\
    let r2 := setHeader r1 (Header.Set_ (Header r1) "Content-Digest"
                              (calcDigest (bodyBytes r))) in
    Signer.Sign s r =
    match signer_Sign s (messageFromRequest r2) with
    | Err e => (r2, Some e)
    | Ok hdr => (setHeader r2 (assignAll hdr (Header r2)), None)
    end.
Proof.
  intros Hr. destruct (bufferBody_readable r Hr) as (r1 & Hb & Hh & Hbody).
  exists r1. split; [exact Hh|]. split; [exact Hbody|].
  unfold Signer.Sign. rewrite Hb. reflexivity.
Qed.

Lemma Sign_success_readable `{Internals} (s : signer) (r r' : Request) :
  Signer.Sign s r = (r', None) -> bodyReadable r.
Proof.
  unfold Signer.Sign. destruct (bufferBody r) as [[b r1] [e|]] eqn:Hb.
  - discriminate.
  - intros _. unfold bodyReadable. unfold bufferBody, ReadFrom in Hb.
    destruct (Body r) as [[p f c]|]; [|exact I]. simpl in *.
    destruct f; [discriminate | reflexivity].
Qed.

(** A body whose read fails: [Sign] returns the read error and no header
    is touched. *)
Lemma Sign_read_failure `{Internals} (s : signer) (r : Request) :
  ~ bodyReadable r ->
  exists e, snd (Signer.Sign s r) = Some e
            /\ Header (fst (Signer.Sign s r)) = Header r.
Proof.
  intros Hr. unfold Signer.Sign.
  destruct (bufferBody r) as [[b r1] [e|]] eqn:Hb.
  - exists e. split; [reflexivity|]. exact (proj2 (bufferBody_failure _ _ _ _ Hb)).
  - exfalso. apply Hr. unfold bodyReadable. unfold bufferBody, ReadFrom in Hb.
    destruct (Body r) as [[p f c]|]; [|exact I]. simpl in *.
    destruct f; [discriminate | reflexivity].
Qed.

(** C1 (as amended): when [Sign] fails after the body was read, that is,
    because the signing engine fails (a key's signing operation fails),
    no Signature-Input or Signature header is added or changed and every
    header other than Content-Digest is as before the call; Content-Digest
    has already been set to the digest of the body. *)
Theorem Sign_failure_headers `{Internals} (s : signer) (r r' : Request) (e : error) :
  bodyReadable r ->
  Signer.Sign s r = (r', Some e) ->
  Header r' = <["Content-Digest" := [calcDigest (bodyBytes r)]]> (Header r)
  /\ Header r' !! "Signature-Input" = Header r !! "Signature-Input"
  /\ Header r' !! "Signature" = Header r !! "Signature"
  /\ (forall k, k ≠ "Content-Digest" -> Header r' !! k = Header r !! k).
Proof.
  intros Hr HS.
  destruct (Sign_readable s r Hr) as (r1 & Hh & _ & Heq). cbn zeta in Heq.
  rewrite Heq in HS. clear Heq.
  destruct (signer_Sign s _) as [hdr|e']; [discriminate|].
  injection HS as <- _. cbn [Header setHeader]. rewrite Hh.
  assert (Hne : forall k, k ≠ "Content-Digest" ->
            Header.Set_ (Header r) "Content-Digest" (calcDigest (bodyBytes r)) !! k
            = Header r !! k) by (intros; by apply Set_lookup_ne).
  split; [reflexivity|].
  split; [by apply Hne|]. split; [by apply Hne | exact Hne].
Qed.

(** C5: a successful [Sign] leaves Content-Digest set to the digest of the
    body bytes, and to the digest of zero bytes when the body is nil or
    empty. *)
Theorem Sign_sets_content_digest `{Internals} (s : signer) (r r' : Request) :
  Signer.Sign s r = (r', None) ->
  Header r' !! "Content-Digest" = Some [calcDigest (bodyBytes r)]
  /\ Header.Get (Header r') "Content-Digest" = calcDigest (bodyBytes r)
  /\ (Body r = None \/ (exists body, Body r = Some body /\ pending body = []) ->
      Header r' !! "Content-Digest" = Some [calcDigest []]).
Proof.
  intros HS. pose proof (Sign_success_readable s r r' HS) as Hr.
  destruct (Sign_readable s r Hr) as (r1 & Hh & _ & Heq). cbn zeta in Heq.
  rewrite Heq in HS. clear Heq.
  destruct (signer_Sign s _) as [hdr|e'] eqn:Hsig; [|discriminate].
  injection HS as <-. cbn [Header setHeader].
  assert (Hlk : (assignAll hdr
                   (Header.Set_ (Header r1) "Content-Digest" (calcDigest (bodyBytes r))))
                !! "Content-Digest" = Some [calcDigest (bodyBytes r)]).
  { rewrite assignAll_union.
    assert (Hnone : hdr !! "Content-Digest" = None).
    { destruct (hdr !! "Content-Digest") eqn:Hd; [|reflexivity].
      destruct (signer_Sign_keys _ _ _ Hsig "Content-Digest") as [?|?];
        [by eexists | discriminate | discriminate]. }
    rewrite lookup_union_r by exact Hnone.
    unfold Header.Set_. rewrite canonical_content_digest. apply lookup_insert_eq. }
  split; [exact Hlk|]. split.
  - unfold Header.Get. rewrite canonical_content_digest, Hlk. reflexivity.
  - intros Hempty. rewrite Hlk.
    assert (Hb : bodyBytes r = []).
    { unfold bodyBytes. destruct Hempty as [->|(body & -> & ->)]; reflexivity. }
    by rewrite Hb.
Qed.

(** C1 (as stated) fails: signing [GET /foo?bar=1] with a key that cannot
    sign returns the key's error, and the request has gained a
    Content-Digest header it did not have. *)
Lemma sign_failure_leaves_headers_fails :
  snd (Signer.Sign brokenSigner getFoo) = Some "signing failed"
  /\ Header getFoo !! "Content-Digest" = None
  /\ Header (fst (Signer.Sign brokenSigner getFoo)) !! "Content-Digest"
     = Some ["sha-512=::"]
  /\ ~ signFailureLeavesHeaders brokenSigner getFoo.
Proof.
  split; [reflexivity|]. split; [reflexivity|]. split; [reflexivity|].
  intros Hkeep.
  specialize (Hkeep (fst (Signer.Sign brokenSigner getFoo)) "signing failed" eq_refl).
  apply (f_equal (fun h : http_Header => h !! "Content-Digest")) in Hkeep.
  vm_compute in Hkeep. discriminate.
Qed.

Lemma Sign_failure_headers_witness :
  bodyReadable postHello
  /\ Signer.Sign brokenSigner postHello
     = (fst (Signer.Sign brokenSigner postHello), Some "signing failed")
  /\ Header (fst (Signer.Sign brokenSigner postHello)) !! "Signature" = None
  /\ Header (fst (Signer.Sign brokenSigner postHello)) !! "Content-Type"
     = Some ["text/plain"].
Proof.
  assert (Hr : bodyReadable postHello) by reflexivity.
  assert (HS : Signer.Sign brokenSigner postHello
               = (fst (Signer.Sign brokenSigner postHello), Some "signing failed"))
    by reflexivity.
  split; [exact Hr|]. split; [exact HS|].
  destruct (Sign_failure_headers brokenSigner postHello _ _ Hr HS)
    as (_ & _ & Hsig & Hother).
  split; [rewrite Hsig; reflexivity|].
  rewrite Hother by discriminate. reflexivity.
Defined.

Lemma Sign_sets_content_digest_witness :
  Signer.Sign testSigner getFoo = (fst (Signer.Sign testSigner getFoo), None)
  /\ Header (fst (Signer.Sign testSigner getFoo)) !! "Content-Digest"
     = Some ["sha-512=::"].
Proof.
  assert (HS : Signer.Sign testSigner getFoo
               = (fst (Signer.Sign testSigner getFoo), None)) by reflexivity.
  split; [exact HS|].
  destruct (Sign_sets_content_digest testSigner getFoo _ HS) as (Hlk & _ & _).
  rewrite Hlk. reflexivity.
Defined.

(** ** [Verifier.Verify] *)

(** [Verify] once the engine has accepted the signature and the body was
    read. *)
Lemma Verify_accepted `{Internals} (v : verifier) (r : Request) (keyID : string) :
  verifier_Verify v (messageFromRequest r) = (keyID, None) ->
  bodyReadable r ->
  exists r1, Header r1 = Header r /\ bufferedAs (Body r) (Body r1) /\
    Verifier.Verify v r =
    (r1, keyID,
     let dig := Header.Get (Header r) "Content-Digest" in
     if negb (String.eqb dig "") then
       if negb (verifyDigest (bodyBytes r) dig) then Some errDigestMismatch else None
     else None).
Proof.
  intros Hv Hr. destruct (bufferBody_readable r Hr) as (r1 & Hb & Hh & Hbody).
  exists r1. split; [exact Hh|]. split; [exact Hbody|].
  unfold Verifier.Verify. rewrite Hv, Hb, Hh. cbn zeta.
  destruct (negb (String.eqb _ "")); [|reflexivity].
  destruct (negb (verifyDigest _ _)); reflexivity.
Qed.

(** When the engine rejects the signature, [Verify] returns its key id and
    error at once: the body is not read and the request is untouched. *)
Lemma Verify_rejected `{Internals} (v : verifier) (r : Request) (keyID : string)
    (e : error) :
  verifier_Verify v (messageFromRequest r) = (keyID, Some e) ->
  Verifier.Verify v r = (r, keyID, Some e).
Proof. intros Hv. unfold Verifier.Verify. rewrite Hv. reflexivity. Qed.

(** C4 (as amended): when the engine accepts the signature, the request
    carries no Content-Digest header and its body is nil or is read to EOF
    without error, [Verify] returns the authenticated key id and no
    error, whatever bytes the body holds: no digest is checked. *)
Theorem Verify_without_digest `{Internals} (v : verifier) (r : Request) (keyID : string) :
  verifier_Verify v (messageFromRequest r) = (keyID, None) ->
  Header r !! "Content-Digest" = None ->
  bodyReadable r ->
  exists r', Verifier.Verify v r = (r', keyID, None).
Proof.
  intros Hv Hnone Hr.
  destruct (Verify_accepted v r keyID Hv Hr) as (r1 & _ & _ & Heq).
  exists r1. rewrite Heq. unfold Header.Get.
  rewrite canonical_content_digest, Hnone. reflexivity.
Qed.

Lemma Verify_without_digest_witness :
  verifier_Verify (NewVerifier testVerifyOptions)
    (messageFromRequest (signedPost None (Some helloBody))) = ("test-key", None)
  /\ Header (signedPost None (Some helloBody)) !! "Content-Digest" = None
  /\ bodyReadable (signedPost None (Some helloBody))
  /\ exists r', Verifier.Verify (NewVerifier testVerifyOptions)
                  (signedPost None (Some helloBody)) = (r', "test-key", None).
Proof.
  split; [reflexivity|]. split; [reflexivity|]. split; [reflexivity|].
  apply (Verify_without_digest (NewVerifier testVerifyOptions)
           (signedPost None (Some helloBody)) "test-key"); reflexivity.
Defined.

(** C4 (as stated) fails: a signed request without Content-Digest whose
    body breaks off with a read error is accepted by the engine, and
    [Verify] returns the key id with that read error. *)
Lemma accepted_without_digest_fails :
  verifier_Verify (NewVerifier testVerifyOptions)
    (messageFromRequest (signedPost None (Some brokenBody))) = ("test-key", None)
  /\ Header (signedPost None (Some brokenBody)) !! "Content-Digest" = None
  /\ (Verifier.Verify (NewVerifier testVerifyOptions)
        (signedPost None (Some brokenBody))).2 = Some "unexpected EOF"
  /\ ~ acceptedWithoutDigest (NewVerifier testVerifyOptions)
        (signedPost None (Some brokenBody)).
Proof.
  split; [reflexivity|]. split; [reflexivity|]. split; [reflexivity|].
  intros Hclaim.
  destruct (Hclaim "test-key" eq_refl eq_refl) as (r' & Heq).
  apply (f_equal snd) in Heq. vm_compute in Heq. discriminate.
Qed.

(** C9: when the engine accepts the signature under a non-empty key id,
    a Content-Digest header is present and the digest of the body does not
    match it, [Verify] returns that key id, not an empty one, together
    with the digest-mismatch error. *)
Theorem Verify_digest_mismatch_keyID `{Internals} (v : verifier) (r : Request)
    (keyID : string) :
  verifier_Verify v (messageFromRequest r) = (keyID, None) ->
  keyID ≠ "" ->
  bodyReadable r ->
  Header.Get (Header r) "Content-Digest" ≠ "" ->
  verifyDigest (bodyBytes r) (Header.Get (Header r) "Content-Digest") = false ->
  exists r' k, Verifier.Verify v r = (r', k, Some errDigestMismatch)
               /\ k = keyID /\ k ≠ "".
Proof.
  intros Hv Hid Hr Hdig Hbad.
  destruct (Verify_accepted v r keyID Hv Hr) as (r1 & _ & _ & Heq).
  exists r1, keyID. split; [|split; [reflexivity | exact Hid]].
  rewrite Heq. cbn zeta. rewrite Hbad.
  destruct (String.eqb_spec (Header.Get (Header r) "Content-Digest") "");
    [contradiction | reflexivity].
Qed.

Lemma Verify_digest_mismatch_keyID_witness :
  exists r', Verifier.Verify (NewVerifier testVerifyOptions)
               (signedPost (Some "sha-512=:other:") (Some helloBody))
             = (r', "test-key", Some "digest mismatch").
Proof.
  destruct (Verify_digest_mismatch_keyID (NewVerifier testVerifyOptions)
              (signedPost (Some "sha-512=:other:") (Some helloBody)) "test-key")
    as (r' & k & Heq & -> & _);
    [reflexivity | discriminate | reflexivity | discriminate | reflexivity |].
  exists r'. exact Heq.
Defined.

(** C10: on a body read to EOF, [Sign], and [Verify] once the engine has
    accepted the signature, leave a nil body nil, leave a body of zero
    bytes in place as the original stream with [Close] called on it, and
    replace a body that yielded at least one byte by a fresh reader over
    the bytes read. *)
Theorem body_after_buffering `{Internals} (s : signer) (v : verifier) (r : Request) :
  bodyReadable r ->
  bufferedAs (Body r) (Body (fst (Signer.Sign s r)))
  /\ (forall keyID, verifier_Verify v (messageFromRequest r) = (keyID, None) ->
      bufferedAs (Body r) (Body (fst (fst (Verifier.Verify v r))))).
Proof.
  intros Hr. split.
  - destruct (Sign_readable s r Hr) as (r1 & _ & Hbody & Heq). cbn zeta in Heq.
    rewrite Heq. destruct (signer_Sign s _); exact Hbody.
  - intros keyID Hv.
    destruct (Verify_accepted v r keyID Hv Hr) as (r1 & _ & Hbody & Heq).
    rewrite Heq. exact Hbody.
Qed.

Lemma body_after_buffering_witness :
  (Body (fst (Signer.Sign testSigner (signedPost None (Some emptyBody))))
     = Some (mkReadCloser [] None 1)
   /\ Body (fst (fst (Verifier.Verify (NewVerifier testVerifyOptions)
                        (signedPost None (Some emptyBody)))))
     = Some (mkReadCloser [] None 1))
  /\ (Body (fst (Signer.Sign testSigner (signedPost None (Some helloBody))))
     = Some (NopCloser_NewReader (list_byte_of_string "hello"))
   /\ Body (fst (fst (Verifier.Verify (NewVerifier testVerifyOptions)
                        (signedPost None (Some helloBody)))))
     = Some (NopCloser_NewReader (list_byte_of_string "hello")))
  /\ (Body (fst (Signer.Sign testSigner (signedPost None None))) = None
   /\ Body (fst (fst (Verifier.Verify (NewVerifier testVerifyOptions)
                        (signedPost None None)))) = None).
Proof.
  split; [|split].
  - destruct (body_after_buffering testSigner (NewVerifier testVerifyOptions)
                (signedPost None (Some emptyBody))) as [HS HV]; [reflexivity|].
    split; [exact HS | exact (HV "test-key" eq_refl)].
  - destruct (body_after_buffering testSigner (NewVerifier testVerifyOptions)
                (signedPost None (Some helloBody))) as [HS HV]; [reflexivity|].
    split; [exact HS | exact (HV "test-key" eq_refl)].
  - destruct (body_after_buffering testSigner (NewVerifier testVerifyOptions)
                (signedPost None None)) as [HS HV]; [reflexivity|].
    split; [exact HS | exact (HV "test-key" eq_refl)].
Defined.

(** ** The signing transport and the verifying middleware *)

Lemma serveErr_fresh (rw : ResponseWriter) :
  rwCommitted rw = None ->
  serveErr rw =
  mkResponseWriter
    (<["Content-Type" := ["text/plain"]]> (rwHeader rw))
    (Some (400%Z, <["Content-Type" := ["text/plain"]]> (rwHeader rw)))
    (rwBody rw ++ list_byte_of_string "invalid required signature")%list.
Proof.
  intros Hc. unfold serveErr, Write, WriteHeader. cbn. rewrite Hc. reflexivity.
Qed.

(** C3: whatever error [Verify] reports, the middleware answers with
    status 400, Content-Type text/plain and the body
    [invalid required signature], the same for every error, and does not
    invoke the wrapped handler; when [Verify] reports no error it invokes
    the wrapped handler, once, and the handler's response is the
    response. *)
Theorem middleware_response `{Internals} (opts : list verifyOption) (h : Handler)
    (rw : ResponseWriter) (r r' : Request) (keyID : string) (err : option error) :
  Verifier.Verify (NewVerifier opts) r = (r', keyID, err) ->
  rwCommitted rw = None ->
  match err with
  | Some _ =>
      srvHandled (NewVerifyMiddleware opts h rw r) = []
      /\ srvWriter (NewVerifyMiddleware opts h rw r) = serveErr rw
      /\ rwCommitted (serveErr rw)
         = Some (StatusBadRequest, <["Content-Type" := ["text/plain"]]> (rwHeader rw))
      /\ rwBody (serveErr rw)
         = (rwBody rw ++ list_byte_of_string "invalid required signature")%list
  | None =>
      srvHandled (NewVerifyMiddleware opts h rw r) = [(rw, r')]
      /\ srvWriter (NewVerifyMiddleware opts h rw r) = fst (h rw r')
      /\ srvRequest (NewVerifyMiddleware opts h rw r) = snd (h rw r')
  end.
Proof.
  intros Hv Hc. unfold NewVerifyMiddleware. rewrite Hv.
  destruct err as [e|].
  - cbn [srvHandled srvWriter srvRequest].
    rewrite (serveErr_fresh rw Hc). cbn [rwCommitted rwBody].
    repeat split; reflexivity.
  - destruct (h rw r') as [rw' r'']. repeat split; reflexivity.
Qed.

Lemma middleware_response_witness :
  (srvHandled (NewVerifyMiddleware testVerifyOptions echoHandler freshWriter getFoo) = []
   /\ srvWriter (NewVerifyMiddleware testVerifyOptions echoHandler freshWriter getFoo)
      = mkResponseWriter {[ "Content-Type" := ["text/plain"] ]}
          (Some (400%Z, {[ "Content-Type" := ["text/plain"] ]}))
          (list_byte_of_string "invalid required signature"))
  /\ srvHandled (NewVerifyMiddleware testVerifyOptions echoHandler freshWriter
                   (signedPost None (Some helloBody)))
     = [(freshWriter, fst (fst (Verifier.Verify (NewVerifier testVerifyOptions)
                                  (signedPost None (Some helloBody)))))].
Proof.
  assert (Hbad : Verifier.Verify (NewVerifier testVerifyOptions) getFoo
                 = (getFoo, "", Some "not signed")) by reflexivity.
  assert (Hgood : Verifier.Verify (NewVerifier testVerifyOptions)
                    (signedPost None (Some helloBody))
                  = (fst (fst (Verifier.Verify (NewVerifier testVerifyOptions)
                                 (signedPost None (Some helloBody)))),
                     "test-key", None)) by reflexivity.
  assert (Hfresh : rwCommitted freshWriter = None) by reflexivity.
  split.
  - destruct (middleware_response testVerifyOptions echoHandler freshWriter
                _ _ _ _ Hbad Hfresh) as (Hh & Hw & _ & _).
    split; [exact Hh|]. rewrite Hw. reflexivity.
  - destruct (middleware_response testVerifyOptions echoHandler freshWriter
                _ _ _ _ Hgood Hfresh) as (Hh & _ & _).
    exact Hh.
Defined.

(** C8: the signing round-tripper invokes the wrapped transport exactly
    when [Sign] succeeds, with the signed request, and returns what it
    returns; when [Sign] fails the wrapped transport is not invoked and
    the result is a nil response with the error of [Sign]. *)
Theorem sign_transport_forwarding `{Internals} (transport : RoundTripper)
    (opts : list signOption) (r r' : Request) (err : option error) :
  Signer.Sign (NewSigner opts) r = (r', err) ->
  (rtForwarded (NewSignTransport transport opts r) ≠ [] <-> err = None)
  /\ match err with
     | Some e =>
         rtForwarded (NewSignTransport transport opts r) = []
         /\ rtResponse (NewSignTransport transport opts r) = None
         /\ rtErr (NewSignTransport transport opts r) = Some e
     | None =>
         rtForwarded (NewSignTransport transport opts r) = [r']
         /\ (rtResponse (NewSignTransport transport opts r),
             rtErr (NewSignTransport transport opts r)) = transport r'
     end.
Proof.
  intros HS. unfold NewSignTransport. rewrite HS.
  destruct err as [e|].
  - cbn [rtForwarded rtResponse rtErr].
    split; [|repeat split; reflexivity].
    split; [intros Hne; by destruct Hne | discriminate].
  - destruct (transport r') as [resp err']. cbn [rtForwarded rtResponse rtErr].
    split; [|repeat split; reflexivity].
    split; [reflexivity | discriminate].
Qed.

Lemma sign_transport_forwarding_witness :
  (rtForwarded (NewSignTransport okTransport
                  [WithHeaders ["content-type"]; WithSigningKey "test-key" brokenKey]
                  getFoo) = []
   /\ rtResponse (NewSignTransport okTransport
                    [WithHeaders ["content-type"]; WithSigningKey "test-key" brokenKey]
                    getFoo) = None
   /\ rtErr (NewSignTransport okTransport
               [WithHeaders ["content-type"]; WithSigningKey "test-key" brokenKey]
               getFoo) = Some "signing failed")
  /\ rtForwarded (NewSignTransport okTransport
                   [WithHeaders ["content-type"]; WithSigningKey "test-key" hmacLikeKey]
                   getFoo)
     = [fst (Signer.Sign testSigner getFoo)].
Proof.
  assert (Hbad : Signer.Sign
                   (NewSigner [WithHeaders ["content-type"];
                               WithSigningKey "test-key" brokenKey]) getFoo
                 = (fst (Signer.Sign brokenSigner getFoo), Some "signing failed"))
    by reflexivity.
  assert (Hgood : Signer.Sign
                    (NewSigner [WithHeaders ["content-type"];
                                WithSigningKey "test-key" hmacLikeKey]) getFoo
                  = (fst (Signer.Sign testSigner getFoo), None))
    by reflexivity.
  split.
  - exact (proj2 (sign_transport_forwarding okTransport _ _ _ _ Hbad)).
  - exact (proj1 (proj2 (sign_transport_forwarding okTransport _ _ _ _ Hgood))).
Defined.

(** * Further properties *)

(** ** [sliceHas] and [NewSigner] *)

(** X1: [sliceHas] decides membership: it answers true exactly when the
    needle is an element of the haystack, compared as exact strings. *)
Theorem sliceHas_spec (haystack : list string) (needle : string) :
  (sliceHas haystack needle = true <-> In needle haystack)
  /\ (sliceHas haystack needle = false <-> ~ In needle haystack).
Proof.
  pose proof (sliceHas_In haystack needle) as Hin.
  split; [exact Hin|].
  destruct (sliceHas haystack needle); split.
  - discriminate.
  - intros Hn. destruct Hn. by apply Hin.
  - intros _ Hi. apply Hin in Hi. discriminate.
  - reflexivity.
Qed.

Lemma In_prepended (hs : list string) (c : string) :
  In c (fold_left prependIfMissing specialtyComponents hs)
  <-> In c specialtyComponents \/ In c hs.
Proof.
  rewrite prepend_specialty, in_app_iff, filter_In.
  assert (Hperm : In c ["@method"; "@path"; "@query"; "content-digest"]
                  <-> In c specialtyComponents) by (simpl; tauto).
  split.
  - intros [[Hc _]|Hc]; [left; by apply Hperm | by right].
  - intros [Hc|Hc]; [|by right].
    destruct (sliceHas hs c) eqn:Hs.
    + right. by apply sliceHas_In.
    + left. split; [by apply Hperm | reflexivity].
Qed.

(** X2: the covered components of a signer are exactly the four specialty
    components together with the caller-specified headers: nothing the
    caller names is dropped and nothing else is added. *)
Theorem NewSigner_covered_set (opts : list signOption) (c : string) :
  In c (headers (NewSigner opts))
  <-> In c specialtyComponents \/ In c (callerSpecified opts).
Proof. unfold NewSigner, callerSpecified. cbn [headers]. apply In_prepended. Qed.

Lemma prepend_fixpoint (hs : list string) :
  (forall c, In c specialtyComponents -> In c hs) ->
  fold_left prependIfMissing specialtyComponents hs = hs.
Proof.
  intros Hall. rewrite prepend_specialty. cbn [List.filter].
  rewrite !(proj2 (sliceHas_In hs _)) by (apply Hall; simpl; tauto).
  reflexivity.
Qed.

(** X3: the header list of a signer is a fixed point of [NewSigner]: given
    back through [WithHeaders], it comes out unchanged (neither the
    defaults nor a second copy of a specialty component are added). *)
Theorem NewSigner_headers_idempotent (opts : list signOption) :
  headers (NewSigner [WithHeaders (headers (NewSigner opts))])
  = headers (NewSigner opts).
Proof.
  assert (Hall : forall c, In c specialtyComponents -> In c (headers (NewSigner opts))).
  { intros c Hc. unfold NewSigner. cbn [headers]. apply In_prepended. by left. }
  unfold NewSigner at 1. unfold applySignOptions, configureSign, WithHeaders.
  cbn [fold_left headers keys].
  destruct (headers (NewSigner opts)) as [|x hs] eqn:Hhs.
  - destruct (Hall "@method"); simpl; tauto.
  - cbn [length Nat.eqb]. apply prepend_fixpoint. exact Hall.
Qed.

Lemma key_options_keep_headers (ks : list signOption) (s : signer) :
  Forall isSignKeyOption ks ->
  headers (fold_left (fun s o => configureSign o s) ks s) = headers s.
Proof.
  intros Hks. revert s.
  induction Hks as [|o ks (keyID & k & ->) _ IH]; intros s; [reflexivity|].
  cbn [fold_left]. rewrite IH. reflexivity.
Qed.

(** X4: [WithHeaders] replaces, it does not accumulate: whatever options
    come before it, the last [WithHeaders] alone decides the header list,
    and key options after it do not touch the list. *)
Theorem last_WithHeaders_wins (opts ks : list signOption) (hdr : list string) :
  Forall isSignKeyOption ks ->
  headers (applySignOptions (opts ++ WithHeaders hdr :: ks)) = hdr
  /\ headers (NewSigner (opts ++ WithHeaders hdr :: ks))
     = headers (NewSigner [WithHeaders hdr]).
Proof.
  intros Hks.
  assert (Hh : headers (applySignOptions (opts ++ WithHeaders hdr :: ks)) = hdr).
  { unfold applySignOptions. rewrite fold_left_app. cbn [fold_left].
    rewrite key_options_keep_headers by exact Hks. reflexivity. }
  split; [exact Hh|].
  unfold NewSigner. cbn [headers]. rewrite Hh. reflexivity.
Qed.

Lemma last_WithHeaders_wins_witness :
  headers (NewSigner [WithHeaders ["date"]; WithHeaders ["content-type"];
                      WithSigningKey "test-key" hmacLikeKey])
  = ["@method"; "@path"; "@query"; "content-digest"; "content-type"].
Proof.
  assert (Hks : Forall isSignKeyOption [WithSigningKey "test-key" hmacLikeKey]).
  { constructor; [|constructor]. by exists "test-key", hmacLikeKey. }
  destruct (last_WithHeaders_wins [WithHeaders ["date"]]
              [WithSigningKey "test-key" hmacLikeKey] ["content-type"] Hks)
    as [_ Heq].
  cbn [app] in Heq. rewrite Heq. reflexivity.
Defined.

(** ** The buffering block, continued *)

(** The block touches the body only. *)
Lemma bufferBody_frame (r : Request) :
  Method (bufferBody r).1.2 = Method r
  /\ URL (bufferBody r).1.2 = URL r
  /\ Header (bufferBody r).1.2 = Header r.
Proof.
  unfold bufferBody, ReadFrom. destruct (Body r) as [[p f c]|]; simpl; [|auto].
  destruct f; simpl; [auto|].
  destruct (negb (Z.of_nat (length p) =? 0)%Z); simpl; auto.
Qed.

(** A read error: the bytes read so far are dropped with the buffer, the
    error is handed back, and [Close] is not called. *)
Lemma bufferBody_read_error (r : Request) (body : ReadCloser) (e : error) :
  Body r = Some body -> failure body = Some e ->
  (bufferBody r).2 = Some e
  /\ exists body', Body (bufferBody r).1.2 = Some body' /\ closes body' = closes body.
Proof.
  intros HB Hf. unfold bufferBody, ReadFrom. rewrite HB, Hf. simpl.
  split; [reflexivity|]. eexists. split; reflexivity.
Qed.

(** ** [Signer.Sign], continued *)

(** X5: when reading the body fails, [Sign] returns the read error and
    stops there: no header is set (no Content-Digest either), the method
    and URL are as before, and the body is left unclosed. *)
Theorem Sign_read_error `{Internals} (s : signer) (r : Request) (body : ReadCloser)
    (e : error) :
  Body r = Some body -> failure body = Some e ->
  (Signer.Sign s r).2 = Some e
  /\ Header (Signer.Sign s r).1 = Header r
  /\ Method (Signer.Sign s r).1 = Method r
  /\ URL (Signer.Sign s r).1 = URL r
  /\ exists body', Body (Signer.Sign s r).1 = Some body' /\ closes body' = closes body.
Proof.
  intros HB Hf.
  destruct (bufferBody_read_error r body e HB Hf) as (He & Hbody).
  destruct (bufferBody_frame r) as (Hm & Hu & Hh).
  unfold Signer.Sign. destruct (bufferBody r) as [[b r1] err]. simpl in *.
  subst err. simpl. auto.
Qed.

Lemma Sign_read_error_witness :
  (Signer.Sign testSigner postBroken).2 = Some "unexpected EOF"
  /\ Header (Signer.Sign testSigner postBroken).1 !! "Content-Digest" = None.
Proof.
  destruct (Sign_read_error testSigner postBroken brokenBody "unexpected EOF"
              eq_refl eq_refl) as (He & Hh & _).
  split; [exact He|]. rewrite Hh. reflexivity.
Defined.

Lemma Sign_success_inv `{Internals} (s : signer) (r r' : Request) :
  Signer.Sign s r = (r', None) ->
  exists hdr,
    signer_Sign s (messageFromRequest (digested r (Body r'))) = Ok hdr
    /\ Header r' = hdr ∪ <["Content-Digest" := [calcDigest (bodyBytes r)]]> (Header r)
    /\ (forall k, hdr !! k = None ->
                  k ≠ "Content-Digest" -> Header r' !! k = Header r !! k)
    /\ Method r' = Method r /\ URL r' = URL r.
Proof.
  intros HS. pose proof (Sign_success_readable s r r' HS) as Hr.
  destruct (bufferBody_readable r Hr) as (r1 & Hb & Hh & _).
  pose proof (bufferBody_frame r) as (Hm & Hu & _). rewrite Hb in Hm, Hu.
  cbn [fst snd] in Hm, Hu.
  unfold Signer.Sign in HS. rewrite Hb in HS.
  assert (Hd : setHeader r1 (Header.Set_ (Header r1) "Content-Digest"
                               (calcDigest (bodyBytes r)))
               = digested r (Body r1)).
  { unfold setHeader, digested, Header.Set_.
    rewrite canonical_content_digest, Hm, Hu, Hh. reflexivity. }
  rewrite Hd in HS.
  destruct (signer_Sign s (messageFromRequest (digested r (Body r1))))
    as [hdr|e'] eqn:Hsig; [|discriminate].
  injection HS as <-. cbn [Body setHeader digested Header Method URL].
  exists hdr. split; [exact Hsig|].
  split; [apply assignAll_union|].
  split; [|split; reflexivity].
  intros k Hk Hne. rewrite assignAll_union, lookup_union_r by exact Hk.
  apply lookup_insert_ne. congruence.
Qed.

(** X6: on success the header map is the engine's entries laid over the
    incoming headers with Content-Digest set: the engine signs the request
    as it stands after the digest was set and the body buffered, each
    header it returns replaces the values under its key, and every other
    header stays; method and URL are as before. *)
Theorem Sign_success_headers `{Internals} (s : signer) (r r' : Request) :
  Signer.Sign s r = (r', None) ->
  exists hdr,
    signer_Sign s (messageFromRequest (digested r (Body r'))) = Ok hdr
    /\ Header r' = hdr ∪ <["Content-Digest" := [calcDigest (bodyBytes r)]]> (Header r)
    /\ (forall k, hdr !! k = None ->
                  k ≠ "Content-Digest" -> Header r' !! k = Header r !! k)
    /\ Method r' = Method r /\ URL r' = URL r.
Proof. apply Sign_success_inv. Qed.

Lemma Sign_success_headers_witness :
  Header (Signer.Sign testSigner postHello).1 !! "Content-Type" = Some ["text/plain"]
  /\ Method (Signer.Sign testSigner postHello).1 = "POST".
Proof.
  assert (HS : Signer.Sign testSigner postHello
               = ((Signer.Sign testSigner postHello).1, None)) by reflexivity.
  destruct (Sign_success_headers testSigner postHello _ HS)
    as (hdr & Hsig & _ & Hkeep & Hm & _).
  split; [|exact Hm].
  rewrite Hkeep; [reflexivity | | discriminate].
  vm_compute in Hsig. injection Hsig as <-. reflexivity.
Defined.

(** ** [Verifier.Verify], continued *)

(** In every branch [Verify] leaves method, URL and headers alone and
    returns the key id the engine returned. *)
Lemma Verify_frame_keyID `{Internals} (v : verifier) (r : Request) :
  Header (Verifier.Verify v r).1.1 = Header r
  /\ Method (Verifier.Verify v r).1.1 = Method r
  /\ URL (Verifier.Verify v r).1.1 = URL r
  /\ (Verifier.Verify v r).1.2 = (verifier_Verify v (messageFromRequest r)).1.
Proof.
  destruct (bufferBody_frame r) as (Hm & Hu & Hh).
  unfold Verifier.Verify.
  destruct (verifier_Verify v (messageFromRequest r)) as [keyID [e|]]; [simpl; auto|].
  destruct (bufferBody r) as [[b r1] [e|]]; simpl in *; [auto|].
  destruct (negb (String.eqb _ "")); [|simpl; auto].
  destruct (negb (verifyDigest _ _)); simpl; auto.
Qed.

Lemma Verify_unreadable `{Internals} (v : verifier) (r : Request) (keyID : string)
    (body : ReadCloser) (e : error) :
  verifier_Verify v (messageFromRequest r) = (keyID, None) ->
  Body r = Some body -> failure body = Some e ->
  (Verifier.Verify v r).2 = Some e
  /\ exists body', Body (Verifier.Verify v r).1.1 = Some body'
                   /\ closes body' = closes body.
Proof.
  intros Hv HB Hf.
  destruct (bufferBody_read_error r body e HB Hf) as (He & Hbody).
  unfold Verifier.Verify. rewrite Hv.
  destruct (bufferBody r) as [[b r1] err]. simpl in *. subst err. simpl. auto.
Qed.

Lemma bodyReadable_dec (r : Request) :
  bodyReadable r \/ exists body e, Body r = Some body /\ failure body = Some e.
Proof.
  unfold bodyReadable. destruct (Body r) as [body|]; [|by left].
  destruct (failure body) as [e|] eqn:Hf; [right; eauto | by left].
Qed.

(** X7: [Verify] is read-only on the request line and the headers: in
    every outcome the method, the URL and the header map are those of the
    incoming request (only the body may be buffered). *)
Theorem Verify_keeps_headers `{Internals} (v : verifier) (r : Request) :
  Header (Verifier.Verify v r).1.1 = Header r
  /\ Method (Verifier.Verify v r).1.1 = Method r
  /\ URL (Verifier.Verify v r).1.1 = URL r.
Proof. destruct (Verify_frame_keyID v r) as (? & ? & ? & _). auto. Qed.

(** X8: an error of [Verify] is the engine's error, the error that broke
    off the read of the body, or the digest mismatch, nothing else; and
    with it comes the key id the engine returned. *)
Theorem Verify_error_origin `{Internals} (v : verifier) (r : Request) (e : error) :
  (Verifier.Verify v r).2 = Some e ->
  (Verifier.Verify v r).1.2 = (verifier_Verify v (messageFromRequest r)).1
  /\ ((verifier_Verify v (messageFromRequest r)).2 = Some e
      \/ (exists body, Body r = Some body /\ failure body = Some e)
      \/ e = errDigestMismatch).
Proof.
  intros He. split; [apply Verify_frame_keyID|].
  destruct (verifier_Verify v (messageFromRequest r)) as [keyID [e0|]] eqn:Hv.
  - left. rewrite (Verify_rejected v r keyID e0 Hv) in He. exact He.
  - right. destruct (bodyReadable_dec r) as [Hr|(body & e1 & HB & Hf)].
    + right. destruct (Verify_accepted v r keyID Hv Hr) as (r1 & _ & _ & Heq).
      rewrite Heq in He. cbn [snd] in He. cbn zeta in He.
      destruct (negb (String.eqb _ "")); [|discriminate].
      destruct (negb (verifyDigest _ _)); [|discriminate].
      by injection He as <-.
    + left. exists body. split; [exact HB|].
      destruct (Verify_unreadable v r keyID body e1 Hv HB Hf) as (He1 & _).
      congruence.
Qed.

Lemma Verify_error_origin_witness :
  (Verifier.Verify (NewVerifier testVerifyOptions)
     (signedPost None (Some brokenBody))).1.2 = "test-key"
  /\ (Verifier.Verify (NewVerifier testVerifyOptions) getFoo).1.2 = "".
Proof.
  assert (Hio : (Verifier.Verify (NewVerifier testVerifyOptions)
                   (signedPost None (Some brokenBody))).2 = Some "unexpected EOF")
    by reflexivity.
  assert (Hno : (Verifier.Verify (NewVerifier testVerifyOptions) getFoo).2
                = Some "not signed") by reflexivity.
  split.
  - destruct (Verify_error_origin _ _ _ Hio) as [Hk _]. rewrite Hk. reflexivity.
  - destruct (Verify_error_origin _ _ _ Hno) as [Hk _]. rewrite Hk. reflexivity.
Defined.

Lemma Verify_no_error_iff `{Internals} (v : verifier) (r : Request) :
  (Verifier.Verify v r).2 = None
  <-> (verifier_Verify v (messageFromRequest r)).2 = None
      /\ bodyReadable r
      /\ (Header.Get (Header r) "Content-Digest" = ""
          \/ verifyDigest (bodyBytes r) (Header.Get (Header r) "Content-Digest") = true).
Proof.
  destruct (verifier_Verify v (messageFromRequest r)) as [keyID [e0|]] eqn:Hv.
  - rewrite (Verify_rejected v r keyID e0 Hv). cbn [snd]. split; [discriminate|].
    intros (Hn & _). discriminate.
  - destruct (bodyReadable_dec r) as [Hr|(body & e1 & HB & Hf)].
    + destruct (Verify_accepted v r keyID Hv Hr) as (r1 & _ & _ & Heq).
      rewrite Heq. cbn [snd]. cbn zeta.
      destruct (String.eqb_spec (Header.Get (Header r) "Content-Digest") "") as [He|He].
      * split; [intros _|reflexivity]. split; [reflexivity|]. split; [exact Hr | by left].
      * cbn [negb].
        destruct (verifyDigest (bodyBytes r) _) eqn:Hd; cbn [negb].
        -- split; [intros _|reflexivity]. split; [reflexivity|]. split; [exact Hr | by right].
        -- split; [discriminate|]. intros (_ & _ & [Hc|Hc]); [contradiction|discriminate].
    + destruct (Verify_unreadable v r keyID body e1 Hv HB Hf) as (He1 & _).
      rewrite He1. split; [discriminate|].
      intros (_ & Hr & _). unfold bodyReadable in Hr. rewrite HB in Hr. congruence.
Qed.

(** X9: [Verify] reports no error exactly when the engine accepted the
    signature, the body could be read, and the Content-Digest value is
    empty or absent or matches the body: it never accepts a request whose
    non-empty Content-Digest value does not match. *)
Theorem Verify_success_iff `{Internals} (v : verifier) (r : Request) :
  (Verifier.Verify v r).2 = None
  <-> (verifier_Verify v (messageFromRequest r)).2 = None
      /\ bodyReadable r
      /\ (Header.Get (Header r) "Content-Digest" = ""
          \/ verifyDigest (bodyBytes r) (Header.Get (Header r) "Content-Digest") = true).
Proof. apply Verify_no_error_iff. Qed.

(** X10: of the values under Content-Digest only the first counts: with
    the signature accepted and the body read, an empty value list or an
    empty first value turns the digest check off, and otherwise the first
    value alone is checked against the body. *)
Theorem Verify_first_digest_value `{Internals} (v : verifier) (r : Request)
    (keyID : string) (vs : list string) :
  verifier_Verify v (messageFromRequest r) = (keyID, None) ->
  bodyReadable r ->
  Header r !! "Content-Digest" = Some vs ->
  (Verifier.Verify v r).2 =
  match vs with
  | [] => None
  | d :: _ =>
      if String.eqb d "" then None
      else if verifyDigest (bodyBytes r) d then None else Some errDigestMismatch
  end.
Proof.
  intros Hv Hr Hvs.
  destruct (Verify_accepted v r keyID Hv Hr) as (r1 & _ & _ & Heq).
  rewrite Heq. cbn [snd]. cbn zeta. unfold Header.Get.
  rewrite canonical_content_digest, Hvs.
  destruct vs as [|d rest]; [reflexivity|].
  destruct (String.eqb d ""); [reflexivity|]. cbn [negb].
  destruct (verifyDigest (bodyBytes r) d); reflexivity.
Qed.

Lemma Verify_first_digest_value_witness :
  (Verifier.Verify (NewVerifier testVerifyOptions)
     (mkRequest "POST" "/submit"
        (<["Content-Digest" := [""; "sha-512=:other:"]]> (signedHeader None))
        (Some helloBody))).2 = None
  /\ (Verifier.Verify (NewVerifier testVerifyOptions)
       (mkRequest "POST" "/submit"
          (<["Content-Digest" := ["sha-512=:hello:"; "sha-512=:other:"]]>
             (signedHeader None))
          (Some helloBody))).2 = None.
Proof.
  split.
  - rewrite (Verify_first_digest_value (NewVerifier testVerifyOptions)
               (mkRequest "POST" "/submit"
                  (<["Content-Digest" := [""; "sha-512=:other:"]]> (signedHeader None))
                  (Some helloBody))
               "test-key" [""; "sha-512=:other:"]); reflexivity.
  - rewrite (Verify_first_digest_value (NewVerifier testVerifyOptions)
               (mkRequest "POST" "/submit"
                  (<["Content-Digest" := ["sha-512=:hello:"; "sha-512=:other:"]]>
                     (signedHeader None))
                  (Some helloBody))
               "test-key" ["sha-512=:hello:"; "sha-512=:other:"]); reflexivity.
Defined.

(** X11: when the signature is accepted but reading the body fails,
    [Verify] returns the authenticated key id together with the read
    error; the digest is not checked and the body is left unclosed. *)
Theorem Verify_read_error `{Internals} (v : verifier) (r : Request) (keyID : string)
    (body : ReadCloser) (e : error) :
  verifier_Verify v (messageFromRequest r) = (keyID, None) ->
  Body r = Some body -> failure body = Some e ->
  (Verifier.Verify v r).2 = Some e
  /\ (Verifier.Verify v r).1.2 = keyID
  /\ exists body', Body (Verifier.Verify v r).1.1 = Some body'
                   /\ closes body' = closes body.
Proof.
  intros Hv HB Hf.
  destruct (Verify_unreadable v r keyID body e Hv HB Hf) as (He & Hbody).
  split; [exact He|]. split; [|exact Hbody].
  destruct (Verify_frame_keyID v r) as (_ & _ & _ & Hk). rewrite Hk, Hv. reflexivity.
Qed.

Lemma Verify_read_error_witness :
  (Verifier.Verify (NewVerifier testVerifyOptions)
     (signedPost (Some "sha-512=:other:") (Some brokenBody))).2 = Some "unexpected EOF"
  /\ (Verifier.Verify (NewVerifier testVerifyOptions)
       (signedPost (Some "sha-512=:other:") (Some brokenBody))).1.2 = "test-key".
Proof.
  destruct (Verify_read_error (NewVerifier testVerifyOptions)
              (signedPost (Some "sha-512=:other:") (Some brokenBody))
              "test-key" brokenBody "unexpected EOF")
    as (He & Hk & _); [reflexivity | reflexivity | reflexivity |].
  split; [exact He | exact Hk].
Defined.

(** ** The wrappers, continued *)

(** X12: when the middleware invokes the wrapped handler, it does so once,
    with the response writer untouched and with the incoming request: the
    same method, URL and headers, and the body as the buffering left it
    (nil stays nil, a body of zero bytes is the original stream with
    [Close] called, a body with bytes is a fresh reader over the same
    bytes). *)
Theorem middleware_handler_input `{Internals} (opts : list verifyOption) (h : Handler)
    (rw : ResponseWriter) (r : Request) :
  srvHandled (NewVerifyMiddleware opts h rw r) ≠ [] ->
  exists r',
    srvHandled (NewVerifyMiddleware opts h rw r) = [(rw, r')]
    /\ (Verifier.Verify (NewVerifier opts) r).2 = None
    /\ Method r' = Method r /\ URL r' = URL r /\ Header r' = Header r
    /\ bufferedAs (Body r) (Body r').
Proof.
  intros Hne. unfold NewVerifyMiddleware in *.
  pose proof (Verify_frame_keyID (NewVerifier opts) r) as (Hh & Hm & Hu & _).
  pose proof (Verify_no_error_iff (NewVerifier opts) r) as Hiff.
  destruct (Verifier.Verify (NewVerifier opts) r) as [[r' k] [e|]] eqn:HV.
  - by destruct Hne.
  - cbn [fst snd] in *. destruct (proj1 Hiff eq_refl) as (Hacc & Hr & _).
    destruct (verifier_Verify (NewVerifier opts) (messageFromRequest r))
      as [keyID err] eqn:Hv. cbn [snd] in Hacc. subst err.
    destruct (Verify_accepted _ r keyID Hv Hr) as (r1 & _ & Hbody & Heq).
    rewrite HV in Heq. injection Heq as -> _.
    exists r1. destruct (h rw r1) as [rw' r'']. cbn [srvHandled].
    repeat split; assumption || reflexivity.
Qed.

Lemma middleware_handler_input_witness :
  exists r',
    srvHandled (NewVerifyMiddleware testVerifyOptions echoHandler freshWriter
                  (signedPost None (Some helloBody))) = [(freshWriter, r')]
    /\ Body r' = Some (NopCloser_NewReader (list_byte_of_string "hello")).
Proof.
  destruct (middleware_handler_input testVerifyOptions echoHandler freshWriter
              (signedPost None (Some helloBody)))
    as (r' & Hh & _ & _ & _ & _ & Hb); [discriminate|].
  exists r'. split; [exact Hh | exact Hb].
Defined.

(** X13: when the signing round-tripper forwards, the wrapped transport
    gets one request, with the method and URL of the outbound request,
    the body as the buffering left it (nil stays nil, a body of zero bytes
    is the original stream with [Close] called, a body with bytes is a
    fresh reader over the same bytes), a Content-Digest header, and a
    value under every header key the caller had set: signing removes no
    header. *)
Theorem transport_forwarded_request `{Internals} (transport : RoundTripper)
    (opts : list signOption) (r : Request) :
  rtForwarded (NewSignTransport transport opts r) ≠ [] ->
  exists q,
    rtForwarded (NewSignTransport transport opts r) = [q]
    /\ Method q = Method r /\ URL q = URL r
    /\ bufferedAs (Body r) (Body q)
    /\ is_Some (Header q !! "Content-Digest")
    /\ (forall k, is_Some (Header r !! k) -> is_Some (Header q !! k)).
Proof.
  intros Hne. unfold NewSignTransport in *.
  destruct (Signer.Sign (NewSigner opts) r) as [q [e|]] eqn:HS.
  - by destruct Hne.
  - pose proof (Sign_success_readable _ r q HS) as Hr.
    destruct (Sign_readable (NewSigner opts) r Hr) as (r1 & _ & Hbody & Heq).
    destruct (Sign_success_inv _ r q HS) as (hdr & _ & Hhdr & _ & Hm & Hu).
    assert (HB : Body q = Body r1).
    { cbn zeta in Heq. rewrite HS in Heq.
      destruct (signer_Sign _ _); [|discriminate]. by injection Heq as ->. }
    rewrite <- HB in Hbody.
    exists q. destruct (transport q) as [resp err]. cbn [rtForwarded].
    split; [reflexivity|]. split; [exact Hm|]. split; [exact Hu|].
    split; [exact Hbody|].
    assert (Hbase : forall k, is_Some
              (<["Content-Digest" := [calcDigest (bodyBytes r)]]> (Header r) !! k) ->
              is_Some (Header q !! k)).
    { intros k Hk. rewrite Hhdr. apply lookup_union_is_Some. by right. }
    split.
    + apply Hbase. rewrite lookup_insert_eq. by eexists.
    + intros k Hk. apply Hbase.
      destruct (decide (k = "Content-Digest")) as [->|Hk'].
      * rewrite lookup_insert_eq. by eexists.
      * rewrite lookup_insert_ne by congruence. exact Hk.
Qed.

Lemma transport_forwarded_request_witness :
  exists q,
    rtForwarded (NewSignTransport okTransport
                   [WithHeaders ["content-type"]; WithSigningKey "test-key" hmacLikeKey]
                   postHello) = [q]
    /\ Body q = Some (NopCloser_NewReader (list_byte_of_string "hello"))
    /\ is_Some (Header q !! "Content-Type").
Proof.
  destruct (transport_forwarded_request okTransport
              [WithHeaders ["content-type"]; WithSigningKey "test-key" hmacLikeKey]
              postHello)
    as (q & Hq & _ & _ & Hb & _ & Hkeep); [discriminate|].
  exists q. split; [exact Hq|]. split; [exact Hb|].
  apply Hkeep. by eexists.
Defined.

(** ** [NewVerifier] *)

Lemma exported_options_keep_clock `{Internals} (opts : list verifyOption) (v : verifier) :
  Forall exportedVerifyOption opts ->
  nowFunc (fold_left (fun v o => configureVerify o v) opts v) = nowFunc v.
Proof.
  intros Hopts. revert v.
  induction Hopts as [|o opts [(rs & ->)|(keyID & k & ->)] _ IH]; intros v;
    [reflexivity | |]; cbn [fold_left]; rewrite IH; reflexivity.
Qed.

Lemma key_options_keep_resolver (ks : list verifyOption) (v : verifier) :
  Forall isVerifyKeyOption ks ->
  resolver (fold_left (fun v o => configureVerify o v) ks v) = resolver v.
Proof.
  intros Hks. revert v.
  induction Hks as [|o ks (keyID & k & ->) _ IH]; intros v; [reflexivity|].
  cbn [fold_left]. rewrite IH. reflexivity.
Qed.

(** X14: no option that httpsig.go exports changes the clock: a verifier
    built from exported options reads [time.Now]. *)
Theorem NewVerifier_clock `{Internals} (opts : list verifyOption) :
  Forall exportedVerifyOption opts ->
  nowFunc (NewVerifier opts) = time_Now.
Proof. intros Hopts. unfold NewVerifier. by rewrite exported_options_keep_clock. Qed.

Lemma NewVerifier_clock_witness :
  nowFunc (NewVerifier
             [WithVerifyingKey "test-key" acceptingKey;
              WithVerifyingKeyResolver
                (VerifyingKeyResolver.Build (fun _ _ => Err "no such key"))]) tt
  = 1700000000%Z.
Proof.
  rewrite (NewVerifier_clock
             [WithVerifyingKey "test-key" acceptingKey;
              WithVerifyingKeyResolver
                (VerifyingKeyResolver.Build (fun _ _ => Err "no such key"))]).
  - reflexivity.
  - constructor; [right; by exists "test-key", acceptingKey|].
    constructor; [left; by eexists | constructor].
Defined.

(** X15: a verifier has no resolver unless an option sets one, and the
    last [WithVerifyingKeyResolver] is the one in force: key options do
    not touch the resolver, whatever precedes them. *)
Theorem NewVerifier_resolver `{Internals} (opts ks : list verifyOption)
    (rs : VerifyingKeyResolver.t) :
  Forall isVerifyKeyOption ks ->
  resolver (NewVerifier ks) = None
  /\ resolver (NewVerifier (opts ++ WithVerifyingKeyResolver rs :: ks)) = Some rs.
Proof.
  intros Hks. unfold NewVerifier. split.
  - by rewrite key_options_keep_resolver.
  - rewrite fold_left_app. cbn [fold_left].
    by rewrite key_options_keep_resolver.
Qed.

Lemma NewVerifier_resolver_witness :
  resolver (NewVerifier testVerifyOptions) = None.
Proof.
  apply (NewVerifier_resolver [] testVerifyOptions
           (VerifyingKeyResolver.Build (fun _ _ => Err "no such key"))).
  constructor; [by exists "test-key", acceptingKey | constructor].
Defined.
